(** * bthread/task_group.h: the per-worker scheduling core of bthread

    A shallow embedding of the parts of [src/bthread/task_group.h] that carry
    behaviour in the header itself: [ExitException], [AtomicInteger128],
    [TaskGroup::CPUTimeStat], [TaskGroup::AtomicCPUTimeStat],
    [TaskGroup::current_task_cpu_clock_ns] and [TaskGroup::steal_task].

    Conventions.
    - [int64_t] is a [Z] in the signed range; arithmetic that can leave the
      range goes through [Int64.wrap] (two's complement).
    - Pointers ([void*], [TaskMeta*]) are [Z] addresses, [0] is [NULL].
    - Collaborators whose code is in other files ([RemoteTaskQueue],
      [ParkingLot], [TaskControl], the bodies of [AtomicInteger128::load]
      and [store]) are operations of the class [Collaborators]; the header's
      functions are written over it.  A reading of a butil clock is an
      argument of the function that takes it. *)

From Stdlib Require Import ZArith Lia Bool List.
From stdpp Require Import base option list gmap.

Local Open Scope Z_scope.

(** ** 64-bit signed integers *)

Module Int64.

Definition modulus : Z := 2 ^ 64.
Definition half_modulus : Z := 2 ^ 63.
Definition min_signed : Z := - half_modulus.
Definition max_signed : Z := half_modulus - 1.

Definition in_range (z : Z) : Prop := min_signed <= z <= max_signed.

(** The representative of [z] modulo 2^64 in the signed range. *)
Definition wrap (z : Z) : Z :=
  (z + half_modulus) mod modulus - half_modulus.

(** [a + b] and [a - b] on [int64_t].  Signed overflow is undefined in
    C++; the embedding takes the two's-complement result. *)
Definition add (a b : Z) : Z := wrap (a + b).
Definition sub (a b : Z) : Z := wrap (a - b).

(** [a << n] on [int64_t]. *)
Definition shl (a n : Z) : Z := wrap (Z.shiftl a n).

(** [static_cast<int64_t>(b)] for a [bool]. *)
Definition of_bool (b : bool) : Z := if b then 1 else 0.

(** Conversion of an [int64_t] to [bool]: non-zero is [true]. *)
Definition to_bool (z : Z) : bool := negb (z =? 0).

End Int64.

(** ** ExitException *)

(** [class ExitException]: the only state is [void* _value]. *)
Record ExitException : Type := mkExitException { _value : Z }.

(** [explicit ExitException(void* value) : _value(value) {}] *)
Definition ExitException_new (value : Z) : ExitException :=
  mkExitException value.

(** [void* value() const { return _value; }] *)
Definition value (e : ExitException) : Z := _value e.

(** ** AtomicInteger128 *)

Module AtomicInteger128.

(** [struct Value { int64_t v1; int64_t v2; }] *)
Record Value : Type := mkValue { v1 : Z; v2 : Z }.

(** The cell.  [_mutex] only serialises accesses and holds no data of the
    pair, so the sequential state is [_value]. *)
Record t : Type := mk { _value : Value }.

(** [explicit AtomicInteger128(Value value) : _value(value) {}] *)
Definition new (value : Value) : t := mk value.

(** [AtomicInteger128() = default], with [Value _value{}]. *)
Definition init : t := mk (mkValue 0 0).

(** [Value load_unsafe() const { return _value; }] *)
Definition load_unsafe (a : t) : Value := _value a.

End AtomicInteger128.

(** ** TaskGroup::CPUTimeStat *)

Module CPUTimeStat.

Import AtomicInteger128.

(** [static constexpr int64_t LAST_SCHEDULING_TIME_MASK = 0x7FFFFFFFFFFFFFFFLL] *)
Definition LAST_SCHEDULING_TIME_MASK : Z := 0x7FFFFFFFFFFFFFFF.

(** [static constexpr int64_t TASK_TYPE_MASK = 0x8000000000000000LL]: the
    literal does not fit [int64_t] and is converted to it. *)
Definition TASK_TYPE_MASK : Z := Int64.wrap 0x8000000000000000.

Record t : Type := mk {
  _last_run_ns_and_type : Z;
  _cumulated_cputime_ns : Z
}.

(** Both members hold an [int64_t]. *)
Definition wf (s : t) : Prop :=
  Int64.in_range (_last_run_ns_and_type s) /\
  Int64.in_range (_cumulated_cputime_ns s).

(** [CPUTimeStat() : _last_run_ns_and_type(0), _cumulated_cputime_ns(0) {}] *)
Definition init : t := mk 0 0.

(** [CPUTimeStat(AtomicInteger128::Value value)] *)
Definition of_Value (value : Value) : t := mk (v1 value) (v2 value).

(** [explicit operator AtomicInteger128::Value() const] *)
Definition to_Value (s : t) : Value :=
  mkValue (_last_run_ns_and_type s) (_cumulated_cputime_ns s).

(** [void set_last_run_ns(int64_t last_run_ns, bool main_task)] *)
Definition set_last_run_ns (last_run_ns : Z) (main_task : bool) (s : t) : t :=
  mk (Z.lor (Z.land last_run_ns LAST_SCHEDULING_TIME_MASK)
            (Int64.shl (Int64.of_bool main_task) 63))
     (_cumulated_cputime_ns s).

(** [int64_t last_run_ns() const] *)
Definition last_run_ns (s : t) : Z :=
  Z.land (_last_run_ns_and_type s) LAST_SCHEDULING_TIME_MASK.

(** [int64_t last_run_ns_and_type() const] *)
Definition last_run_ns_and_type (s : t) : Z := _last_run_ns_and_type s.

(** [bool is_main_task() const] *)
Definition is_main_task (s : t) : bool :=
  Int64.to_bool (Z.land (_last_run_ns_and_type s) TASK_TYPE_MASK).

(** [void add_cumulated_cputime_ns(int64_t cputime_ns, bool main_task)] *)
Definition add_cumulated_cputime_ns (cputime_ns : Z) (main_task : bool)
    (s : t) : t :=
  if main_task then s
  else mk (_last_run_ns_and_type s)
          (Int64.add (_cumulated_cputime_ns s) cputime_ns).

(** [int64_t cumulated_cputime_ns() const] *)
Definition cumulated_cputime_ns (s : t) : Z := _cumulated_cputime_ns s.

End CPUTimeStat.

(** A run of scheduling quanta charged to one stat: each quantum is the CPU
    time it took and whether the main task ran in it, charged with
    [add_cumulated_cputime_ns] in order. *)
Definition charge_quanta (quanta : list (Z * bool)) (s : CPUTimeStat.t)
    : CPUTimeStat.t :=
  fold_left
    (fun (acc : CPUTimeStat.t) (q : Z * bool) =>
       CPUTimeStat.add_cumulated_cputime_ns (fst q) (snd q) acc)
    quanta s.

(** The CPU time of the quanta in which the main task did not run. *)
Definition workload_ns (quanta : list (Z * bool)) : Z :=
  fold_right
    (fun (q : Z * bool) (sum : Z) => if snd q then sum else fst q + sum)
    0 quanta.

(** ** Collaborators of the header

    The header calls into classes whose code lives in other files.  Their
    operations are taken as they are declared, with the state they act on
    passed explicitly; an out-parameter [bthread_t* tid] together with a
    [bool] result is an [option]: [Some t] is [true] with [*tid = t]. *)

Class Collaborators : Type := {
  (** [AtomicInteger128::load] and [AtomicInteger128::store]
      (task_group.cpp). *)
  AtomicInteger128_load : AtomicInteger128.t -> AtomicInteger128.Value;
  AtomicInteger128_store :
    AtomicInteger128.Value -> AtomicInteger128.t -> AtomicInteger128.t;
  (** [bool RemoteTaskQueue::pop(bthread_t* task)] (remote_task_queue.h). *)
  RemoteTaskQueue : Type;
  RemoteTaskQueue_pop : RemoteTaskQueue -> option Z * RemoteTaskQueue;
  (** [ParkingLot::State ParkingLot::get_state()] (parking_lot.h). *)
  ParkingLot : Type;
  ParkingLot_State : Type;
  ParkingLot_get_state : ParkingLot -> ParkingLot_State;
  (** [bool TaskControl::steal_task(bthread_t* tid, size_t* seed,
      size_t offset)] (task_control.h): the stolen id, the seed left in
      [*seed], and the control afterwards. *)
  TaskControl : Type;
  TaskControl_steal_task :
    TaskControl -> Z -> Z -> option Z * Z * TaskControl;
  (** Whether the build defines the macro of that name. *)
  BTHREAD_DONT_SAVE_PARKING_STATE : bool
}.

(** Modelled from the spec: bthread/task_meta.h is not among the sources.
    The members are those section 3 of the specification lists for
    [TaskMeta] ([fn], [arg] and [stack] left out: nothing here runs a task),
    with the interrupt flag of section 4.6 and the return value that section
    4.5 stores into the meta.  [version] is the generation held in
    [version_butex]. *)
Record TaskStatistics : Type := mkTaskStatistics { cpu_usage_ns : Z }.

Record TaskMeta : Type := mkTaskMeta {
  tid : Z;
  attr : Z;
  stop : bool;
  interrupted : bool;
  stat : TaskStatistics;
  cpuwide_start_ns : Z;
  version : Z;
  terminated : bool;
  return_value : Z
}.

Section Header.

Context `{Collaborators}.

(** ** TaskGroup::AtomicCPUTimeStat *)

Record AtomicCPUTimeStat : Type :=
  mkAtomicCPUTimeStat { _cpu_time_stat_cell : AtomicInteger128.t }.

(** [CPUTimeStat load() const { return _cpu_time_stat.load(); }] *)
Definition AtomicCPUTimeStat_load (c : AtomicCPUTimeStat) : CPUTimeStat.t :=
  CPUTimeStat.of_Value (AtomicInteger128_load (_cpu_time_stat_cell c)).

(** [CPUTimeStat load_unsafe() const] *)
Definition AtomicCPUTimeStat_load_unsafe (c : AtomicCPUTimeStat)
    : CPUTimeStat.t :=
  CPUTimeStat.of_Value (AtomicInteger128.load_unsafe (_cpu_time_stat_cell c)).

(** [void store(CPUTimeStat cpu_time_stat)] *)
Definition AtomicCPUTimeStat_store (cpu_time_stat : CPUTimeStat.t)
    (c : AtomicCPUTimeStat) : AtomicCPUTimeStat :=
  mkAtomicCPUTimeStat
    (AtomicInteger128_store (CPUTimeStat.to_Value cpu_time_stat)
                            (_cpu_time_stat_cell c)).

(** ** TaskGroup

    The members the inline functions of the header read or write.
    [_cur_meta], [_control] and [_pl] are pointers in the source; the record
    holds what they point to. *)
Record TaskGroup : Type := mkTaskGroup {
  _cur_meta : TaskMeta;
  _control : TaskControl;
  _cpu_time_stat : AtomicCPUTimeStat;
  _last_cpu_clock_ns : Z;
  _pl : ParkingLot;
  _last_pl_state : ParkingLot_State;
  _steal_seed : Z;
  _steal_offset : Z;
  _main_tid : Z;
  _remote_rq : RemoteTaskQueue
}.

(** [bthread_t main_tid() const], [TaskMeta* current_task() const],
    [bthread_t current_tid() const], [bool is_current_main_task() const] *)
Definition main_tid (g : TaskGroup) : Z := _main_tid g.
Definition current_task (g : TaskGroup) : TaskMeta := _cur_meta g.
Definition current_tid (g : TaskGroup) : Z := tid (_cur_meta g).
Definition is_current_main_task (g : TaskGroup) : bool :=
  current_tid g =? _main_tid g.

(** [int64_t current_task_cpu_clock_ns()].  [cputhread_time_ns] is what
    [butil::cputhread_time_ns()] returns when the function reads it. *)
Definition current_task_cpu_clock_ns (cputhread_time_ns : Z) (g : TaskGroup)
    : Z :=
  if _last_cpu_clock_ns g =? 0 then 0
  else
    let total_ns := cpu_usage_ns (stat (_cur_meta g)) in
    Int64.add total_ns (Int64.sub cputhread_time_ns (_last_cpu_clock_ns g)).

(** *** Calls made by a member function

    A member function of [TaskGroup] is a computation on the group that
    returns a result, the group afterwards, and the calls it made on its
    collaborators, oldest first. *)
Inductive Call : Type :=
| CallRemotePop
| CallGetState
| CallControlSteal (seed offset : Z).

Definition Member (A : Type) : Type := TaskGroup -> A * TaskGroup * list Call.

Definition member_ret {A : Type} (a : A) : Member A := fun g => (a, g, []).

Definition member_bind {A B : Type} (m : Member A) (k : A -> Member B)
    : Member B :=
  fun g =>
    let '(a, g1, t1) := m g in
    let '(b, g2, t2) := k a g1 in
    (b, g2, t1 ++ t2).

Notation "x <~ m ;; k" := (member_bind m (fun x => k))
  (at level 100, m at next level, right associativity).

(** Assignments to the members the calls below write. *)
Definition set_remote_rq (q : RemoteTaskQueue) (g : TaskGroup) : TaskGroup :=
  mkTaskGroup (_cur_meta g) (_control g) (_cpu_time_stat g)
    (_last_cpu_clock_ns g) (_pl g) (_last_pl_state g) (_steal_seed g)
    (_steal_offset g) (_main_tid g) q.

Definition set_last_pl_state (st : ParkingLot_State) (g : TaskGroup)
    : TaskGroup :=
  mkTaskGroup (_cur_meta g) (_control g) (_cpu_time_stat g)
    (_last_cpu_clock_ns g) (_pl g) st (_steal_seed g) (_steal_offset g)
    (_main_tid g) (_remote_rq g).

Definition set_control_and_seed (c : TaskControl) (seed : Z) (g : TaskGroup)
    : TaskGroup :=
  mkTaskGroup (_cur_meta g) c (_cpu_time_stat g) (_last_cpu_clock_ns g)
    (_pl g) (_last_pl_state g) seed (_steal_offset g) (_main_tid g)
    (_remote_rq g).

(** [_remote_rq.pop(tid)] *)
Definition remote_rq_pop : Member (option Z) := fun g =>
  let '(r, q) := RemoteTaskQueue_pop (_remote_rq g) in
  (r, set_remote_rq q g, [CallRemotePop]).

(** [_last_pl_state = _pl->get_state();] *)
Definition save_pl_state : Member unit := fun g =>
  (tt, set_last_pl_state (ParkingLot_get_state (_pl g)) g, [CallGetState]).

(** [_control->steal_task(tid, &_steal_seed, _steal_offset)] *)
Definition control_steal_task : Member (option Z) := fun g =>
  let '(r, seed, c) :=
    TaskControl_steal_task (_control g) (_steal_seed g) (_steal_offset g) in
  (r, set_control_and_seed c seed g,
   [CallControlSteal (_steal_seed g) (_steal_offset g)]).

(** [bool steal_task(bthread_t* tid)] *)
Definition steal_task : Member (option Z) :=
  r <~ remote_rq_pop ;;
  match r with
  | Some t => member_ret (Some t)
  | None =>
      _ <~ (if BTHREAD_DONT_SAVE_PARKING_STATE then member_ret tt
            else save_pl_state) ;;
      control_steal_task
  end.

(** The calls [steal_task] makes once the remote queue has yielded nothing:
    the capture of the parking-lot state, in builds that keep it, and then
    the request to the control. *)
Definition calls_after_empty_pop (g : TaskGroup) : list Call :=
  (if BTHREAD_DONT_SAVE_PARKING_STATE then [] else [CallGetState])
  ++ [CallControlSteal (_steal_seed g) (_steal_offset g)].

(** [n] calls of [steal_task] in a row, with their results in order. *)
Fixpoint steal_task_times (n : nat) : Member (list (option Z)) :=
  match n with
  | O => member_ret []
  | S n' =>
      r <~ steal_task ;;
      rs <~ steal_task_times n' ;;
      member_ret (r :: rs)
  end.

(** [n] calls of [RemoteTaskQueue::pop] in a row on a queue. *)
Fixpoint remote_pops (n : nat) (q : RemoteTaskQueue)
    : list (option Z) * RemoteTaskQueue :=
  match n with
  | O => ([], q)
  | S n' =>
      let '(r, q1) := RemoteTaskQueue_pop q in
      let '(rs, q2) := remote_pops n' q1 in
      (r :: rs, q2)
  end.

(** [void set_pl(ParkingLot* pl) { _pl = pl; }] *)
Definition set_pl (pl : ParkingLot) (g : TaskGroup) : TaskGroup :=
  mkTaskGroup (_cur_meta g) (_control g) (_cpu_time_stat g)
    (_last_cpu_clock_ns g) pl (_last_pl_state g) (_steal_seed g)
    (_steal_offset g) (_main_tid g) (_remote_rq g).

(** [static bool is_main_task(TaskGroup* g, bthread_t tid)] *)
Definition is_main_task (g : TaskGroup) (t : Z) : bool := _main_tid g =? t.

(** [int64_t current_uptime_ns() const].  [cpuwide_time_ns] is what
    [butil::cpuwide_time_ns()] returns when the function reads it. *)
Definition current_uptime_ns (cpuwide_time_ns : Z) (g : TaskGroup) : Z :=
  Int64.sub cpuwide_time_ns (cpuwide_start_ns (_cur_meta g)).

End Header.

(** ** Operations declared in the header and defined in task_group.cpp *)

Section MetaPool.

(** The two components of a [bthread_t]: the slot in the meta pool and the
    generation.  Section 3 of the specification fixes that an id is made of
    the two and leaves the layout open. *)
Variables tid_slot tid_generation : Z -> Z.

(** The code for "no such ltask" that [get_attr] leaves in [errno], and the
    code [join] returns for joining oneself; the specification names the
    errors and not their numbers. *)
Variables E_NO_SUCH_LTASK E_JOIN_SELF : Z.

(** Modelled from the spec: [TaskGroup::address_meta] is declared in the
    header and defined elsewhere.  Section 6: "address_meta(tid) -> *Meta
    (returns null on stale generation)".  The pool maps a slot to the meta
    stored there. *)
Definition address_meta (pool : gmap Z TaskMeta) (t : Z) : option TaskMeta :=
  match pool !! tid_slot t with
  | Some m => if version m =? tid_generation t then Some m else None
  | None => None
  end.

(** An id is stale when the generation of its slot has moved past the one in
    the id. *)
Definition stale (pool : gmap Z TaskMeta) (t : Z) : Prop :=
  exists m, pool !! tid_slot t = Some m /\ tid_generation t < version m.

(** What a call to [join] does before it could suspend. *)
Inductive JoinStep : Type :=
| JoinReturns (rc : Z)
| JoinWaits (m : TaskMeta).

(** Modelled from the spec: [TaskGroup::join] is declared in the header and
    defined elsewhere.  Section 4.6: "resolves meta; if generation mismatch,
    returns success (already terminated).  Otherwise waits on version_butex
    until generation advances; then copies return value.  Joining self is an
    error."  [cur] is the id of the calling ltask. *)
Definition join (pool : gmap Z TaskMeta) (cur t : Z) : JoinStep :=
  match address_meta pool t with
  | None => JoinReturns 0
  | Some m => if t =? cur then JoinReturns E_JOIN_SELF else JoinWaits m
  end.

(** Modelled from the spec: the second half of [TaskGroup::join], after the
    wait: "then copies return value".  [m] is the meta once its generation
    has advanced; the result is the return code and what is left in
    [*return_value]. *)
Definition join_wake (m : TaskMeta) : Z * Z := (0, return_value m).

(** Modelled from the spec: [TaskGroup::interrupt] is declared in the header
    and defined elsewhere.  Section 4.6: "sets the meta's interrupt flag via
    butex; wakes any blocking primitive the ltask is parked on.  Returns
    success even if the ltask is not currently blocked"; section 7: on an
    invalid id, "interrupt: noop-success".  The result is the return code
    and the pool afterwards; waking the parked primitive acts on the butex
    and the run queues, which the pool does not hold. *)
Definition interrupt (pool : gmap Z TaskMeta) (t : Z)
    : Z * gmap Z TaskMeta :=
  match address_meta pool t with
  | None => (0, pool)
  | Some m =>
      (0, <[tid_slot t :=
              mkTaskMeta (tid m) (attr m) (stop m) true (stat m)
                (cpuwide_start_ns m) (version m) (terminated m)
                (return_value m)]> pool)
  end.

(** Modelled from the spec: [TaskGroup::get_attr] is declared in the header
    and defined elsewhere.  Header: "Put attribute associated with `tid'
    into `*attr'.  Returns 0 on success, -1 otherwise and errno is set";
    section 7: on an invalid id, "get_attr: error".  [errno] and [attr_out]
    are [errno] and [*attr] before the call; the result is the return code
    and the two afterwards. *)
Definition get_attr (pool : gmap Z TaskMeta) (t : Z) (errno attr_out : Z)
    : Z * Z * Z :=
  match address_meta pool t with
  | Some m => (0, errno, attr m)
  | None => (-1, E_NO_SUCH_LTASK, attr_out)
  end.

End MetaPool.

(** How the entry function of an ltask ends: it returns a value, or
    [ExitException] unwinds out of it. *)
Inductive EntryOutcome : Type :=
| Returns (v : Z)
| Raises (e : ExitException).

(** Modelled from the spec: [bthread_exit] is defined in bthread.cpp.
    Section 7: "ExitSignal: a sentinel raised by bthread_exit(value)". *)
Definition bthread_exit (v : Z) : EntryOutcome := Raises (ExitException_new v).

(** Modelled from the spec: [TaskGroup::task_runner] is declared in the
    header and defined elsewhere.  Section 4.5, step 2: "Invokes fn(arg);
    catches the sentinel ExitSignal to extract the explicit return value". *)
Definition task_runner_thread_return (o : EntryOutcome) : Z :=
  match o with
  | Returns v => v
  | Raises e => value e
  end.

(** Modelled from the spec: section 4.5, step 3: "Stores return value into
    the meta, marks the meta terminated, bumps the meta's generation". *)
Definition task_runner_finish (o : EntryOutcome) (m : TaskMeta) : TaskMeta :=
  mkTaskMeta (tid m) (attr m) (stop m) (interrupted m) (stat m)
    (cpuwide_start_ns m) (version m + 1) true (task_runner_thread_return o).

(** *** The local run queue and push_rq *)

(** Modelled from the spec: bthread/work_stealing_queue.h is not among the
    sources.  Section 3: "bounded circular buffer ... owner pushes/pops at
    the bottom, stealers pop at the top"; section 4.3: "push_bottom(tid) ->
    bool: owner only; returns false if full".  [items] lists the queued ids
    from the top to the bottom. *)
Record WorkStealingQueue : Type := mkWorkStealingQueue {
  capacity : nat;
  items : list Z
}.

Definition wsq_full (q : WorkStealingQueue) : bool :=
  (capacity q <=? length (items q))%nat.

Definition wsq_push (x : Z) (q : WorkStealingQueue)
    : option WorkStealingQueue :=
  if wsq_full q then None
  else Some (mkWorkStealingQueue (capacity q) (items q ++ [x])).

(** Peers steal [n] ids from the top. *)
Definition wsq_stolen (n : nat) (q : WorkStealingQueue) : WorkStealingQueue :=
  mkWorkStealingQueue (capacity q) (drop n (items q)).

(** Modelled from the spec: [TaskGroup::push_rq] is declared in the header
    and defined elsewhere.  Header: "Push a task into _rq, if _rq is full,
    retry after some time.  This process make go on indefinitely"; section
    7: "local rq full on push_rq retries indefinitely with backoff".

    The loop has no bound, so it is iterated [fuel] times: [None] is a call
    still retrying after [fuel] attempts.  The owner is inside [push_rq], so
    between two attempts only stealing peers change the queue: [stolen k] is
    the number of ids they take during the back-off that follows attempt
    [k].  The length of the back-off is time and is not modelled. *)
Fixpoint push_rq (fuel : nat) (stolen : nat -> nat) (attempt : nat)
    (q : WorkStealingQueue) (t : Z) : option WorkStealingQueue :=
  match fuel with
  | O => None
  | S fuel' =>
      match wsq_push t q with
      | Some q' => Some q'
      | None =>
          push_rq fuel' stolen (S attempt) (wsq_stolen (stolen attempt) q) t
      end
  end.

(** The queue as attempt number [attempt + n] finds it, when attempt number
    [attempt] finds [q] and no attempt in between succeeds. *)
Fixpoint rq_before_attempt (n : nat) (stolen : nat -> nat) (attempt : nat)
    (q : WorkStealingQueue) : WorkStealingQueue :=
  match n with
  | O => q
  | S n' =>
      rq_before_attempt n' stolen (S attempt) (wsq_stolen (stolen attempt) q)
  end.

(** ** A concrete set of collaborators

    The simplest implementations of the collaborators' interfaces, used to
    run the functions above on examples: the 128-bit cell read and written
    as a whole, the remote queue a FIFO list, the parking lot its state, and
    a control whose stealable ids are one list and which advances the seed
    by the offset. *)
Definition list_collaborators : Collaborators := {|
  AtomicInteger128_load := AtomicInteger128._value;
  AtomicInteger128_store := fun v _ => AtomicInteger128.mk v;
  RemoteTaskQueue := list Z;
  RemoteTaskQueue_pop := fun q =>
    match q with
    | [] => (None, [])
    | t :: q' => (Some t, q')
    end;
  ParkingLot := Z;
  ParkingLot_State := Z;
  ParkingLot_get_state := fun pl => pl;
  TaskControl := list Z;
  TaskControl_steal_task := fun c seed offset =>
    match c with
    | [] => (None, seed + offset, [])
    | t :: c' => (Some t, seed + offset, c')
    end;
  BTHREAD_DONT_SAVE_PARKING_STATE := false
|}.

(** The meta of generation [generation] stored in slot [slot], of a task
    that has used 500 ns. *)
Definition example_meta (slot generation : Z) : TaskMeta :=
  mkTaskMeta (generation * 2 ^ 32 + slot) 0 false false
    (mkTaskStatistics 500) 0 generation false 0.

(** A group over [list_collaborators] with the given remote queue, peers'
    ids and last CPU clock, running the task of slot 1, generation 1. *)
Definition example_group (remote peers : list Z) (last_cpu_clock : Z)
    : @TaskGroup list_collaborators :=
  @mkTaskGroup list_collaborators (example_meta 1 1) peers
    (mkAtomicCPUTimeStat AtomicInteger128.init) last_cpu_clock 7 0 11 3 0
    remote.

(** A group over [list_collaborators] whose current task started at
    [start] on the cpu-wide clock. *)
Definition example_group_started (start : Z) : @TaskGroup list_collaborators :=
  @mkTaskGroup list_collaborators
    (mkTaskMeta 4294967297 0 false false (mkTaskStatistics 500) start 1 false
       0)
    [] (mkAtomicCPUTimeStat AtomicInteger128.init) 0 7 0 11 3 0 [].

(** A group over [list_collaborators] whose current task has used [usage]
    ns of CPU and whose last CPU clock is [last_cpu_clock]. *)
Definition example_group_usage (usage last_cpu_clock : Z)
    : @TaskGroup list_collaborators :=
  @mkTaskGroup list_collaborators
    (mkTaskMeta 4294967297 0 false false (mkTaskStatistics usage) 0 1 false 0)
    [] (mkAtomicCPUTimeStat AtomicInteger128.init) last_cpu_clock 7 0 11 3 0
    [].

(** Ids with the slot in the low 32 bits and the generation above. *)
Definition low32_slot (t : Z) : Z := Z.land t (Z.ones 32).
Definition high32_generation (t : Z) : Z := Z.shiftr t 32.

(** * Properties *)

(** ** Arithmetic of [Int64] and of the two masks *)

Lemma wrap_in_range (z : Z) : Int64.in_range (Int64.wrap z).
Proof.
  unfold Int64.in_range, Int64.wrap, Int64.min_signed, Int64.max_signed,
    Int64.modulus, Int64.half_modulus.
  pose proof (Z.mod_pos_bound (z + 2 ^ 63) (2 ^ 64) ltac:(lia)). lia.
Qed.

Lemma wrap_small (z : Z) : Int64.in_range z -> Int64.wrap z = z.
Proof.
  unfold Int64.in_range, Int64.wrap, Int64.min_signed, Int64.max_signed,
    Int64.modulus, Int64.half_modulus.
  intros Hz. rewrite Z.mod_small by lia. lia.
Qed.

Lemma wrap_add_wrap (a b : Z) :
  Int64.wrap (a + Int64.wrap b) = Int64.wrap (a + b).
Proof.
  unfold Int64.wrap, Int64.modulus, Int64.half_modulus.
  f_equal.
  replace (a + ((b + 2 ^ 63) mod 2 ^ 64 - 2 ^ 63) + 2 ^ 63)
    with (a + (b + 2 ^ 63) mod 2 ^ 64) by lia.
  rewrite Zplus_mod_idemp_r. f_equal. lia.
Qed.

Lemma TASK_TYPE_MASK_eq : CPUTimeStat.TASK_TYPE_MASK = - 2 ^ 63.
Proof. reflexivity. Qed.

Lemma land_time_mask (x : Z) :
  Z.land x CPUTimeStat.LAST_SCHEDULING_TIME_MASK = x mod 2 ^ 63.
Proof.
  change CPUTimeStat.LAST_SCHEDULING_TIME_MASK with (Z.ones 63).
  apply Z.land_ones. lia.
Qed.

Lemma land_type_mask (x : Z) :
  Z.land x CPUTimeStat.TASK_TYPE_MASK = 2 ^ 63 * (x / 2 ^ 63).
Proof.
  rewrite TASK_TYPE_MASK_eq.
  change (- 2 ^ 63) with (Z.lnot (Z.ones 63)).
  rewrite <- Z.ldiff_land, Z.ldiff_ones_r by lia.
  rewrite Z.shiftr_div_pow2, Z.shiftl_mul_pow2 by lia. lia.
Qed.

Lemma lor_type_mask (a : Z) :
  0 <= a < 2 ^ 63 -> Z.lor a (- 2 ^ 63) = a - 2 ^ 63.
Proof.
  intros Ha.
  assert (Hd : Z.land a (- 2 ^ 63) = 0).
  { rewrite <- TASK_TYPE_MASK_eq, land_type_mask, Z.div_small by lia. lia. }
  rewrite <- Z.lxor_lor by exact Hd.
  rewrite <- Z.add_nocarry_lxor by exact Hd. lia.
Qed.

(** [static_cast<int64_t>(main_task) << 63] is the sign bit or nothing. *)
Lemma shl_of_bool_63 (b : bool) :
  Int64.shl (Int64.of_bool b) 63 = if b then - 2 ^ 63 else 0.
Proof. destruct b; reflexivity. Qed.

Lemma testbit_type_mask (i : Z) :
  0 <= i -> Z.testbit (- 2 ^ 63) i = (63 <=? i).
Proof.
  intros Hi. change (- 2 ^ 63) with (Z.lnot (Z.ones 63)).
  rewrite Z.lnot_spec by lia.
  destruct (Z.leb_spec 63 i).
  - rewrite Z.ones_spec_high by lia. reflexivity.
  - rewrite Z.ones_spec_low by lia. reflexivity.
Qed.

Lemma set_last_run_ns_word (s : CPUTimeStat.t) (ns : Z) (main : bool) :
  0 <= ns < 2 ^ 63 ->
  CPUTimeStat.last_run_ns_and_type (CPUTimeStat.set_last_run_ns ns main s)
  = if main then ns - 2 ^ 63 else ns.
Proof.
  intros Hns. unfold CPUTimeStat.last_run_ns_and_type,
    CPUTimeStat.set_last_run_ns.
  cbn [CPUTimeStat._last_run_ns_and_type].
  rewrite land_time_mask, Z.mod_small, shl_of_bool_63 by lia.
  destruct main.
  - apply lor_type_mask. lia.
  - apply Z.lor_0_r.
Qed.

(** ** CPUTimeStat *)

(** C1.  For a timestamp [ns] with [0 <= ns < 2^63] and a flag [main], after
    [set_last_run_ns(ns, main)] the accessor [last_run_ns()] returns [ns] and
    [is_main_task()] returns [main].  The packed word is an [int64_t] whose
    bits 0..62 are those of [ns] and whose bit 63 is [main]. *)
Theorem set_last_run_ns_packing (s : CPUTimeStat.t) (ns : Z) (main : bool) :
  0 <= ns < 2 ^ 63 ->
  let s' := CPUTimeStat.set_last_run_ns ns main s in
  CPUTimeStat.last_run_ns s' = ns /\
  CPUTimeStat.is_main_task s' = main /\
  Int64.in_range (CPUTimeStat.last_run_ns_and_type s') /\
  (forall i, 0 <= i < 63 ->
     Z.testbit (CPUTimeStat.last_run_ns_and_type s') i = Z.testbit ns i) /\
  Z.testbit (CPUTimeStat.last_run_ns_and_type s') 63 = main.
Proof.
  intros Hns s'.
  pose proof (set_last_run_ns_word s ns main Hns) as Hw. fold s' in Hw.
  assert (Hl : CPUTimeStat.last_run_ns s' = ns).
  { unfold CPUTimeStat.last_run_ns.
    change (CPUTimeStat._last_run_ns_and_type s')
      with (CPUTimeStat.last_run_ns_and_type s').
    rewrite Hw, land_time_mask. destruct main.
    - replace (ns - 2 ^ 63) with (ns + (-1) * 2 ^ 63) by lia.
      rewrite Z.mod_add by lia. apply Z.mod_small. lia.
    - apply Z.mod_small. lia. }
  assert (Hm : CPUTimeStat.is_main_task s' = main).
  { unfold CPUTimeStat.is_main_task, Int64.to_bool.
    change (CPUTimeStat._last_run_ns_and_type s')
      with (CPUTimeStat.last_run_ns_and_type s').
    rewrite Hw, land_type_mask. destruct main.
    - replace ((ns - 2 ^ 63) / 2 ^ 63) with (-1); [reflexivity|].
      apply Z.div_unique with (r := ns); lia.
    - rewrite Z.div_small by lia. reflexivity. }
  split; [exact Hl|]. split; [exact Hm|]. split; [|split].
  - rewrite Hw. unfold Int64.in_range, Int64.min_signed, Int64.max_signed,
      Int64.half_modulus. destruct main; lia.
  - intros i Hi. unfold CPUTimeStat.last_run_ns_and_type, s',
      CPUTimeStat.set_last_run_ns.
    cbn [CPUTimeStat._last_run_ns_and_type].
    rewrite Z.lor_spec, land_time_mask, shl_of_bool_63.
    rewrite Z.mod_pow2_bits_low by lia.
    destruct main.
    + rewrite testbit_type_mask by lia.
      replace (63 <=? i) with false by (symmetry; apply Z.leb_gt; lia).
      apply orb_false_r.
    + rewrite Z.bits_0. apply orb_false_r.
  - unfold CPUTimeStat.last_run_ns_and_type, s',
      CPUTimeStat.set_last_run_ns.
    cbn [CPUTimeStat._last_run_ns_and_type].
    rewrite Z.lor_spec, land_time_mask, shl_of_bool_63.
    rewrite Z.mod_pow2_bits_high by lia.
    destruct main; reflexivity.
Qed.

Lemma set_last_run_ns_packing_witness :
  0 <= 1700000000000000000 < 2 ^ 63 /\
  CPUTimeStat.last_run_ns
    (CPUTimeStat.set_last_run_ns 1700000000000000000 true CPUTimeStat.init)
  = 1700000000000000000 /\
  CPUTimeStat.is_main_task
    (CPUTimeStat.set_last_run_ns 1700000000000000000 true CPUTimeStat.init)
  = true.
Proof.
  split; [lia|].
  pose proof (set_last_run_ns_packing CPUTimeStat.init 1700000000000000000
                true ltac:(lia)) as (Hl & Hm & _).
  split; [exact Hl | exact Hm].
Defined.

(** C2, amended.  [add_cumulated_cputime_ns(delta, true)] leaves
    [cumulated_cputime_ns()] unchanged.  For [delta >= 0] whose sum with the
    old value still fits [int64_t], [add_cumulated_cputime_ns(delta, false)]
    makes it exactly the old value plus [delta].  In both cases the new
    value is at least the old one. *)
Theorem add_cumulated_cputime_ns_monotone (s : CPUTimeStat.t) (delta : Z) :
  CPUTimeStat.wf s ->
  0 <= delta ->
  (CPUTimeStat.cumulated_cputime_ns
     (CPUTimeStat.add_cumulated_cputime_ns delta true s)
   = CPUTimeStat.cumulated_cputime_ns s) /\
  (CPUTimeStat.cumulated_cputime_ns s + delta <= Int64.max_signed ->
   CPUTimeStat.cumulated_cputime_ns
     (CPUTimeStat.add_cumulated_cputime_ns delta false s)
   = CPUTimeStat.cumulated_cputime_ns s + delta) /\
  (forall main,
     CPUTimeStat.cumulated_cputime_ns s + delta <= Int64.max_signed ->
     CPUTimeStat.cumulated_cputime_ns s
     <= CPUTimeStat.cumulated_cputime_ns
          (CPUTimeStat.add_cumulated_cputime_ns delta main s)).
Proof.
  intros [_ Hc] Hd.
  assert (Hadd : CPUTimeStat.cumulated_cputime_ns s + delta
                 <= Int64.max_signed ->
                 CPUTimeStat.cumulated_cputime_ns
                   (CPUTimeStat.add_cumulated_cputime_ns delta false s)
                 = CPUTimeStat.cumulated_cputime_ns s + delta).
  { intros Hfit. unfold CPUTimeStat.cumulated_cputime_ns in *.
    cbn [CPUTimeStat.add_cumulated_cputime_ns
           CPUTimeStat._cumulated_cputime_ns].
    apply wrap_small. unfold Int64.in_range in *. lia. }
  split; [reflexivity|]. split; [exact Hadd|].
  intros [] Hfit.
  - apply Z.le_refl.
  - rewrite (Hadd Hfit). lia.
Qed.

Lemma add_cumulated_cputime_ns_monotone_witness :
  let s := CPUTimeStat.mk 1700000000000000000 100 in
  CPUTimeStat.cumulated_cputime_ns
    (CPUTimeStat.add_cumulated_cputime_ns 5 true s) = 100 /\
  CPUTimeStat.cumulated_cputime_ns
    (CPUTimeStat.add_cumulated_cputime_ns 5 false s) = 105.
Proof.
  intros s.
  assert (Hwf : CPUTimeStat.wf s).
  { split; unfold Int64.in_range, Int64.min_signed, Int64.max_signed,
      Int64.half_modulus; simpl; lia. }
  destruct (add_cumulated_cputime_ns_monotone s 5 Hwf ltac:(lia))
    as (Hmain & Hadd & _).
  split; [exact Hmain|].
  apply Hadd. unfold Int64.max_signed, Int64.half_modulus. simpl. lia.
Defined.

(** C2 as stated fails where the sum leaves [int64_t]: with the cumulated
    time at [INT64_MAX] and [delta = 1] the stored value becomes
    [INT64_MIN], which is neither the old value plus one nor at least the
    old value; and no [int64_t] at all equals the old value plus one. *)
Lemma add_cumulated_cputime_ns_overflow :
  let s := CPUTimeStat.of_Value (AtomicInteger128.mkValue 0 Int64.max_signed) in
  let s' := CPUTimeStat.add_cumulated_cputime_ns 1 false s in
  CPUTimeStat.wf s /\ 0 <= 1 /\ Int64.in_range 1 /\
  CPUTimeStat.cumulated_cputime_ns s' = Int64.min_signed /\
  CPUTimeStat.cumulated_cputime_ns s'
    <> CPUTimeStat.cumulated_cputime_ns s + 1 /\
  ~ (CPUTimeStat.cumulated_cputime_ns s
     <= CPUTimeStat.cumulated_cputime_ns s') /\
  (forall r, Int64.in_range r -> r <> CPUTimeStat.cumulated_cputime_ns s + 1).
Proof.
  cbv zeta.
  assert (Hmax : Int64.max_signed = 9223372036854775807) by reflexivity.
  assert (Hmin : Int64.min_signed = -9223372036854775808) by reflexivity.
  assert (Hs' : CPUTimeStat.cumulated_cputime_ns
                  (CPUTimeStat.add_cumulated_cputime_ns 1 false
                     (CPUTimeStat.of_Value
                        (AtomicInteger128.mkValue 0 Int64.max_signed)))
                = Int64.min_signed) by reflexivity.
  rewrite Hs'.
  unfold CPUTimeStat.wf, Int64.in_range, CPUTimeStat.cumulated_cputime_ns.
  cbn [CPUTimeStat.of_Value CPUTimeStat._cumulated_cputime_ns
         CPUTimeStat._last_run_ns_and_type AtomicInteger128.v1
         AtomicInteger128.v2].
  rewrite Hmax, Hmin. repeat split; try lia.
Qed.

(** Both updates keep the two words in [int64_t]. *)
Lemma CPUTimeStat_wf_preserved (s : CPUTimeStat.t) (ns delta : Z)
    (main : bool) :
  CPUTimeStat.wf s ->
  0 <= ns < 2 ^ 63 ->
  CPUTimeStat.wf (CPUTimeStat.set_last_run_ns ns main s) /\
  CPUTimeStat.wf (CPUTimeStat.add_cumulated_cputime_ns delta main s).
Proof.
  intros [Hw Hc] Hns. split.
  - split; [|exact Hc].
    change (Int64.in_range
              (CPUTimeStat.last_run_ns_and_type
                 (CPUTimeStat.set_last_run_ns ns main s))).
    rewrite set_last_run_ns_word by exact Hns.
    unfold Int64.in_range, Int64.min_signed, Int64.max_signed,
      Int64.half_modulus. destruct main; lia.
  - unfold CPUTimeStat.add_cumulated_cputime_ns.
    destruct main; split; try assumption.
    apply wrap_in_range.
Qed.

(** C10.  [set_last_run_ns] leaves [cumulated_cputime_ns()] unchanged, and
    [add_cumulated_cputime_ns] leaves [last_run_ns()], [is_main_task()] and
    the packed word unchanged, for all arguments. *)
Theorem CPUTimeStat_field_independence (s : CPUTimeStat.t) (ns delta : Z)
    (main : bool) :
  CPUTimeStat.cumulated_cputime_ns (CPUTimeStat.set_last_run_ns ns main s)
  = CPUTimeStat.cumulated_cputime_ns s /\
  CPUTimeStat.last_run_ns (CPUTimeStat.add_cumulated_cputime_ns delta main s)
  = CPUTimeStat.last_run_ns s /\
  CPUTimeStat.is_main_task (CPUTimeStat.add_cumulated_cputime_ns delta main s)
  = CPUTimeStat.is_main_task s /\
  CPUTimeStat.last_run_ns_and_type
    (CPUTimeStat.add_cumulated_cputime_ns delta main s)
  = CPUTimeStat.last_run_ns_and_type s.
Proof.
  split; [reflexivity|].
  unfold CPUTimeStat.add_cumulated_cputime_ns.
  destruct main; repeat split; reflexivity.
Qed.

Lemma CPUTimeStat_of_to_Value (s : CPUTimeStat.t) :
  CPUTimeStat.of_Value (CPUTimeStat.to_Value s) = s.
Proof. destruct s. reflexivity. Qed.

(** ** ExitException *)

(** C6.  For every pointer [v], [ExitException] constructed with [v] has
    [value() == v]; the value the task runner extracts when [bthread_exit(v)]
    unwinds to the ltask root is [v], and a join that wakes on the meta the
    runner finished receives [v] with return code 0. *)
Theorem ExitException_carries_value (v : Z) :
  value (ExitException_new v) = v /\
  task_runner_thread_return (bthread_exit v) = v /\
  (forall m, join_wake (task_runner_finish (bthread_exit v) m) = (0, v)).
Proof.
  split; [reflexivity|]. split; [reflexivity|]. intros m. reflexivity.
Qed.

Section HeaderProperties.

Context `{Collaborators}.

(** ** AtomicCPUTimeStat *)

(** C9.  Converting a [CPUTimeStat] to an [AtomicInteger128::Value] and
    constructing a [CPUTimeStat] back yields a stat with the same
    [last_run_ns_and_type()] and [cumulated_cputime_ns()], indeed the same
    stat.  Hence, over a cell whose [load] returns the pair last stored,
    [AtomicCPUTimeStat::store] followed by [load] recovers the stored stat. *)
Theorem CPUTimeStat_Value_roundtrip (s : CPUTimeStat.t) :
  let s' := CPUTimeStat.of_Value (CPUTimeStat.to_Value s) in
  CPUTimeStat.last_run_ns_and_type s' = CPUTimeStat.last_run_ns_and_type s /\
  CPUTimeStat.cumulated_cputime_ns s' = CPUTimeStat.cumulated_cputime_ns s /\
  s' = s /\
  ((forall a v, AtomicInteger128_load (AtomicInteger128_store v a) = v) ->
   forall c, AtomicCPUTimeStat_load (AtomicCPUTimeStat_store s c) = s).
Proof.
  cbv zeta. rewrite CPUTimeStat_of_to_Value.
  repeat split.
  intros Hcell c. unfold AtomicCPUTimeStat_load, AtomicCPUTimeStat_store.
  cbn [_cpu_time_stat_cell]. rewrite Hcell.
  apply CPUTimeStat_of_to_Value.
Qed.

(** ** TaskGroup::current_task_cpu_clock_ns *)

(** C8, amended.  [current_task_cpu_clock_ns()] returns 0 when
    [_last_cpu_clock_ns] is 0.  Otherwise, whenever the [cpu_usage_ns] of the
    current task plus the thread CPU time elapsed since [_last_cpu_clock_ns]
    fits [int64_t], it returns exactly that sum; in general what it returns
    is that sum modulo 2^64. *)
Theorem current_task_cpu_clock_ns_spec (g : TaskGroup) (now : Z) :
  let usage := cpu_usage_ns (stat (_cur_meta g)) in
  let elapsed := now - _last_cpu_clock_ns g in
  (_last_cpu_clock_ns g = 0 -> current_task_cpu_clock_ns now g = 0) /\
  (_last_cpu_clock_ns g <> 0 ->
   current_task_cpu_clock_ns now g = Int64.wrap (usage + elapsed)) /\
  (_last_cpu_clock_ns g <> 0 ->
   Int64.in_range (usage + elapsed) ->
   current_task_cpu_clock_ns now g = usage + elapsed).
Proof.
  intros usage elapsed.
  assert (Hnz : _last_cpu_clock_ns g <> 0 ->
                current_task_cpu_clock_ns now g
                = Int64.wrap (usage + elapsed)).
  { intros Hl. unfold current_task_cpu_clock_ns.
    destruct (Z.eqb_spec (_last_cpu_clock_ns g) 0) as [E|_]; [contradiction|].
    unfold Int64.add, Int64.sub. apply wrap_add_wrap. }
  split; [|split].
  - intros Hl. unfold current_task_cpu_clock_ns. rewrite Hl. reflexivity.
  - exact Hnz.
  - intros Hl Hfit. rewrite (Hnz Hl). apply wrap_small. exact Hfit.
Qed.

(** ** TaskGroup::steal_task *)

(** C4.  [steal_task] first pops the group's own remote queue.  When the pop
    yields an id, that id is returned and this is the only call made: the
    parking lot and the control are not touched.  When the pop yields
    nothing, the parking-lot state is captured into [_last_pl_state] (unless
    the build defines [BTHREAD_DONT_SAVE_PARKING_STATE]) and then the control
    is asked to steal with [_steal_seed] and [_steal_offset]; its answer is
    the result. *)
Theorem steal_task_order (g : TaskGroup) :
  match RemoteTaskQueue_pop (_remote_rq g) with
  | (Some t, q) =>
      steal_task g = (Some t, set_remote_rq q g, [CallRemotePop])
  | (None, q) =>
      let g1 := set_remote_rq q g in
      let g2 := if BTHREAD_DONT_SAVE_PARKING_STATE then g1
                else set_last_pl_state (ParkingLot_get_state (_pl g)) g1 in
      let '(r, seed, c) :=
        TaskControl_steal_task (_control g) (_steal_seed g) (_steal_offset g)
      in
      steal_task g
      = (r, set_control_and_seed c seed g2,
         CallRemotePop :: calls_after_empty_pop g)
  end.
Proof.
  unfold steal_task, member_bind, remote_rq_pop, calls_after_empty_pop.
  destruct (RemoteTaskQueue_pop (_remote_rq g)) as [[t|] q].
  - reflexivity.
  - cbv zeta. unfold control_steal_task, save_pl_state, member_ret.
    destruct BTHREAD_DONT_SAVE_PARKING_STATE;
      cbn [_control _steal_seed _steal_offset set_remote_rq
             set_last_pl_state];
      destruct (TaskControl_steal_task (_control g) (_steal_seed g)
                  (_steal_offset g)) as [[r seed] c];
      reflexivity.
Qed.

End HeaderProperties.

Lemma CPUTimeStat_Value_roundtrip_witness :
  @AtomicCPUTimeStat_load list_collaborators
    (@AtomicCPUTimeStat_store list_collaborators
       (CPUTimeStat.mk (-9223372036854775000) 42)
       (mkAtomicCPUTimeStat AtomicInteger128.init))
  = CPUTimeStat.mk (-9223372036854775000) 42.
Proof.
  destruct (@CPUTimeStat_Value_roundtrip list_collaborators
              (CPUTimeStat.mk (-9223372036854775000) 42))
    as (_ & _ & _ & Hcell).
  apply Hcell. intros a v. reflexivity.
Defined.

Lemma current_task_cpu_clock_ns_spec_witness :
  current_task_cpu_clock_ns 0 (example_group [] [] 0) = 0 /\
  current_task_cpu_clock_ns 1300 (example_group [] [] 1000) = 800.
Proof.
  split.
  - apply (@current_task_cpu_clock_ns_spec list_collaborators
             (example_group [] [] 0) 0).
    reflexivity.
  - apply (@current_task_cpu_clock_ns_spec list_collaborators
             (example_group [] [] 1000) 1300).
    + simpl. lia.
    + unfold Int64.in_range, Int64.min_signed, Int64.max_signed,
        Int64.half_modulus. simpl. lia.
Defined.

(** C8 as stated fails where the sum leaves [int64_t]: with [cpu_usage_ns]
    at [INT64_MAX], [_last_cpu_clock_ns = 1000] and the clock reading 1001,
    accounting is enabled and one nanosecond has elapsed, yet the function
    returns [INT64_MIN], not the usage plus the elapsed time; and no
    [int64_t] at all equals that sum. *)
Lemma current_task_cpu_clock_ns_overflow :
  let g := example_group_usage Int64.max_signed 1000 in
  _last_cpu_clock_ns g <> 0 /\
  Int64.in_range (cpu_usage_ns (stat (_cur_meta g))) /\
  Int64.in_range (1001 - _last_cpu_clock_ns g) /\
  current_task_cpu_clock_ns 1001 g = Int64.min_signed /\
  current_task_cpu_clock_ns 1001 g
  <> cpu_usage_ns (stat (_cur_meta g)) + (1001 - _last_cpu_clock_ns g) /\
  (forall r, Int64.in_range r ->
     r <> cpu_usage_ns (stat (_cur_meta g)) + (1001 - _last_cpu_clock_ns g)).
Proof.
  cbv zeta.
  assert (Hmax : Int64.max_signed = 9223372036854775807) by reflexivity.
  assert (Hmin : Int64.min_signed = -9223372036854775808) by reflexivity.
  assert (Hr : current_task_cpu_clock_ns 1001
                 (example_group_usage Int64.max_signed 1000)
               = Int64.min_signed) by reflexivity.
  rewrite Hr. unfold Int64.in_range.
  cbn [example_group_usage _last_cpu_clock_ns _cur_meta stat cpu_usage_ns].
  rewrite Hmax, Hmin. repeat split; try lia.
Qed.

(** [steal_task] on [list_collaborators]: an id waiting in the remote queue
    is returned after the pop alone; with the remote queue empty the state
    of the parking lot is saved and the control gives an id of a peer. *)
Example steal_task_remote_first :
  steal_task (example_group [21; 22] [31] 0)
  = (Some 21, example_group [22] [31] 0, [CallRemotePop]).
Proof. reflexivity. Qed.

Example steal_task_from_peer :
  steal_task (example_group [] [31; 32] 0)
  = (Some 31,
     @mkTaskGroup list_collaborators (example_meta 1 1) [32]
       (mkAtomicCPUTimeStat AtomicInteger128.init) 0 7 7 14 3 0 [],
     [CallRemotePop; CallGetState; CallControlSteal 11 3]).
Proof. reflexivity. Qed.

(** ** Stale ids *)

Section MetaPoolProperties.

Variables tid_slot tid_generation : Z -> Z.
Variables E_NO_SUCH_LTASK E_JOIN_SELF : Z.

Lemma address_meta_stale (pool : gmap Z TaskMeta) (t : Z) :
  stale tid_slot tid_generation pool t ->
  address_meta tid_slot tid_generation pool t = None.
Proof.
  intros (m & Hm & Hgen). unfold address_meta. rewrite Hm.
  destruct (Z.eqb_spec (version m) (tid_generation t)) as [E|_];
    [lia | reflexivity].
Qed.

(** C5.  For a [tid] whose generation has advanced, [join] returns 0,
    [interrupt] returns 0 and leaves the pool as it was, and [get_attr]
    returns -1, sets [errno] and leaves [*attr] as it was. *)
Theorem stale_id_behaviour (pool : gmap Z TaskMeta) (t : Z) :
  stale tid_slot tid_generation pool t ->
  (forall cur,
     join tid_slot tid_generation E_JOIN_SELF pool cur t = JoinReturns 0) /\
  interrupt tid_slot tid_generation pool t = (0, pool) /\
  (forall errno attr_out,
     get_attr tid_slot tid_generation E_NO_SUCH_LTASK pool t errno attr_out
     = (-1, E_NO_SUCH_LTASK, attr_out)).
Proof.
  intros Hstale. unfold join, interrupt, get_attr.
  rewrite (address_meta_stale pool t Hstale).
  split; [|split]; intros; reflexivity.
Qed.

End MetaPoolProperties.

Lemma stale_id_behaviour_witness :
  join low32_slot high32_generation 22 {[ 3 := example_meta 3 5 ]} 4294967297
    (4 * 2 ^ 32 + 3) = JoinReturns 0 /\
  interrupt low32_slot high32_generation {[ 3 := example_meta 3 5 ]}
    (4 * 2 ^ 32 + 3) = (0, {[ 3 := example_meta 3 5 ]}) /\
  get_attr low32_slot high32_generation 22 {[ 3 := example_meta 3 5 ]}
    (4 * 2 ^ 32 + 3) 0 77 = (-1, 22, 77).
Proof.
  assert (Hstale : stale low32_slot high32_generation
                     {[ 3 := example_meta 3 5 ]} (4 * 2 ^ 32 + 3)).
  { exists (example_meta 3 5). split.
    - change (low32_slot (4 * 2 ^ 32 + 3)) with 3. apply lookup_singleton_eq.
    - change (high32_generation (4 * 2 ^ 32 + 3)) with 4. simpl. lia. }
  destruct (stale_id_behaviour low32_slot high32_generation 22 22
              {[ 3 := example_meta 3 5 ]} (4 * 2 ^ 32 + 3) Hstale)
    as (Hjoin & Hint & Hattr).
  split; [apply Hjoin|]. split; [exact Hint | apply Hattr].
Defined.

(** On a live id the three operations take their other branch. *)
Example live_id_behaviour :
  let pool : gmap Z TaskMeta := {[ 3 := example_meta 3 5 ]} in
  let t := 5 * 2 ^ 32 + 3 in
  join low32_slot high32_generation 22 pool 4294967297 t
    = JoinWaits (example_meta 3 5) /\
  join low32_slot high32_generation 22 pool t t = JoinReturns 22 /\
  (interrupt low32_slot high32_generation pool t).1 = 0 /\
  interrupted <$> ((interrupt low32_slot high32_generation pool t).2 !! 3)
    = Some true /\
  get_attr low32_slot high32_generation 22 pool t 0 77 = (0, 0, 0).
Proof.
  cbv zeta. unfold join, interrupt, get_attr, address_meta.
  change (low32_slot (5 * 2 ^ 32 + 3)) with 3.
  rewrite lookup_singleton_eq.
  change (version (example_meta 3 5) =? high32_generation (5 * 2 ^ 32 + 3))
    with true.
  cbn [fst snd]. rewrite lookup_insert_eq.
  repeat split.
Qed.

(** ** push_rq *)

Section PushRq.

Variable stolen : nat -> nat.
Variable t : Z.

Lemma wsq_push_full (q : WorkStealingQueue) :
  wsq_full q = true -> wsq_push t q = None.
Proof. intros Hf. unfold wsq_push. rewrite Hf. reflexivity. Qed.

Lemma wsq_push_room (q : WorkStealingQueue) :
  wsq_full q = false ->
  wsq_push t q = Some (mkWorkStealingQueue (capacity q) (items q ++ [t])).
Proof. intros Hf. unfold wsq_push. rewrite Hf. reflexivity. Qed.

(** Between attempts the queue only loses ids at the top. *)
Lemma rq_before_attempt_items (n : nat) :
  forall attempt q,
    capacity (rq_before_attempt n stolen attempt q) = capacity q /\
    exists k, items (rq_before_attempt n stolen attempt q) = drop k (items q).
Proof.
  induction n as [|n IH]; intros attempt q.
  - split; [reflexivity|]. exists 0%nat. reflexivity.
  - cbn [rq_before_attempt].
    destruct (IH (S attempt) (wsq_stolen (stolen attempt) q)) as (Hc & k & Hk).
    split; [rewrite Hc; reflexivity|].
    exists (stolen attempt + k)%nat. rewrite Hk. cbn [wsq_stolen items].
    apply drop_drop.
Qed.

(** A call that returns has found room at some attempt within its fuel,
    after finding the queue full at every earlier one, and returns the queue
    of that attempt with the id at the bottom. *)
Lemma push_rq_Some (fuel : nat) :
  forall attempt q q',
    push_rq fuel stolen attempt q t = Some q' ->
    exists n,
      (n < fuel)%nat /\
      (forall j, (j < n)%nat ->
         wsq_full (rq_before_attempt j stolen attempt q) = true) /\
      wsq_full (rq_before_attempt n stolen attempt q) = false /\
      q' = mkWorkStealingQueue (capacity q)
             (items (rq_before_attempt n stolen attempt q) ++ [t]).
Proof.
  induction fuel as [|fuel IH]; intros attempt q q' Hp; [discriminate|].
  cbn [push_rq] in Hp.
  destruct (wsq_full q) eqn:Hf.
  - rewrite (wsq_push_full q Hf) in Hp.
    destruct (IH _ _ _ Hp) as (n & Hn & Hbefore & Hroom & Hq').
    exists (S n). split; [lia|]. split; [|split].
    + intros [|j] Hj; [exact Hf|]. apply Hbefore. lia.
    + exact Hroom.
    + exact Hq'.
  - rewrite (wsq_push_room q Hf) in Hp. injection Hp as <-.
    exists 0%nat. split; [lia|]. split; [intros j Hj; lia|].
    split; [exact Hf | reflexivity].
Qed.

(** Once some attempt finds room, every call with fuel beyond that attempt
    returns, and returns the same queue. *)
Lemma push_rq_room (n : nat) :
  forall attempt q,
    wsq_full (rq_before_attempt n stolen attempt q) = false ->
    exists q',
      forall fuel, (n < fuel)%nat ->
        push_rq fuel stolen attempt q t = Some q'.
Proof.
  induction n as [|n IH]; intros attempt q Hroom.
  - exists (mkWorkStealingQueue (capacity q) (items q ++ [t])).
    intros [|fuel] Hfuel; [lia|].
    cbn [push_rq]. rewrite (wsq_push_room q Hroom). reflexivity.
  - destruct (wsq_full q) eqn:Hf.
    + destruct (IH (S attempt) (wsq_stolen (stolen attempt) q) Hroom)
        as (q' & Hq').
      exists q'. intros [|fuel] Hfuel; [lia|].
      cbn [push_rq]. rewrite (wsq_push_full q Hf). apply Hq'. lia.
    + exists (mkWorkStealingQueue (capacity q) (items q ++ [t])).
      intros [|fuel] Hfuel; [lia|].
      cbn [push_rq]. rewrite (wsq_push_room q Hf). reflexivity.
Qed.

(** While every attempt finds the queue full, no amount of fuel makes the
    call return. *)
Lemma push_rq_full_forever (fuel : nat) :
  forall attempt q,
    (forall n, wsq_full (rq_before_attempt n stolen attempt q) = true) ->
    push_rq fuel stolen attempt q t = None.
Proof.
  induction fuel as [|fuel IH]; intros attempt q Hfull; [reflexivity|].
  cbn [push_rq]. rewrite (wsq_push_full q (Hfull 0%nat)).
  apply IH. intros n. exact (Hfull (S n)).
Qed.

Lemma rq_before_attempt_no_steal (n : nat) :
  forall attempt q,
    (forall k, stolen k = 0%nat) ->
    rq_before_attempt n stolen attempt q = q.
Proof.
  induction n as [|n IH]; intros attempt q Hno; [reflexivity|].
  cbn [rq_before_attempt]. rewrite Hno, IH by exact Hno.
  destruct q. reflexivity.
Qed.

(** C7.  A call to [push_rq] that returns has enqueued the id: the queue it
    leaves is the queue of the attempt that found room, which holds the ids
    of the original queue that no peer stole, with the id added at the
    bottom.  The call returns as soon as an attempt finds room.  While the
    queue is full at every attempt, in particular while it is full and
    nothing is stolen, the call is still retrying after any number of
    attempts. *)
Theorem push_rq_never_drops (q : WorkStealingQueue) :
  (forall fuel q',
     push_rq fuel stolen 0 q t = Some q' ->
     capacity q' = capacity q /\
     (length (items q') <= capacity q')%nat /\
     last (items q') = Some t /\
     exists k, items q' = drop k (items q) ++ [t]) /\
  (forall n,
     wsq_full (rq_before_attempt n stolen 0 q) = false ->
     exists q', forall fuel, (n < fuel)%nat ->
       push_rq fuel stolen 0 q t = Some q') /\
  ((forall n, wsq_full (rq_before_attempt n stolen 0 q) = true) ->
   forall fuel, push_rq fuel stolen 0 q t = None) /\
  (wsq_full q = true -> (forall k, stolen k = 0%nat) ->
   forall fuel, push_rq fuel stolen 0 q t = None).
Proof.
  split; [|split; [|split]].
  - intros fuel q' Hp.
    destruct (push_rq_Some fuel 0%nat q q' Hp) as (n & _ & _ & Hroom & ->).
    destruct (rq_before_attempt_items n 0%nat q) as (Hc & k & Hk).
    cbn [capacity items]. split; [reflexivity|]. split; [|split].
    + unfold wsq_full in Hroom. rewrite Hc in Hroom.
      apply Nat.leb_gt in Hroom. rewrite length_app. simpl. lia.
    + apply last_snoc.
    + exists k. rewrite Hk. reflexivity.
  - intros n. apply push_rq_room.
  - intros Hfull fuel. apply push_rq_full_forever. exact Hfull.
  - intros Hf Hno fuel. apply push_rq_full_forever.
    intros n. rewrite rq_before_attempt_no_steal by exact Hno. exact Hf.
Qed.

End PushRq.

Lemma push_rq_never_drops_witness :
  (let q' := mkWorkStealingQueue 2 [2; 3] in
   capacity q' = 2%nat /\
   (length (items q') <= capacity q')%nat /\
   last (items q') = Some 3 /\
   exists k, items q' = drop k [1; 2] ++ [3]) /\
  push_rq 1000 (fun _ => 0%nat) 0 (mkWorkStealingQueue 2 [1; 2]) 3 = None.
Proof.
  split.
  - apply (push_rq_never_drops
             (fun k => if (k =? 1)%nat then 1%nat else 0%nat) 3
             (mkWorkStealingQueue 2 [1; 2])) with (fuel := 3%nat).
    reflexivity.
  - apply (push_rq_never_drops (fun _ => 0%nat) 3
             (mkWorkStealingQueue 2 [1; 2])).
    + reflexivity.
    + intros k. reflexivity.
Defined.

(** A full queue of capacity 2: nothing is stolen after the first attempt,
    one id after the second, and the third attempt enqueues. *)
Example push_rq_after_one_steal :
  let stolen := fun k => if (k =? 1)%nat then 1%nat else 0%nat in
  let q := mkWorkStealingQueue 2 [1; 2] in
  push_rq 2 stolen 0 q 3 = None /\
  push_rq 3 stolen 0 q 3 = Some (mkWorkStealingQueue 2 [2; 3]) /\
  push_rq 9 stolen 0 q 3 = Some (mkWorkStealingQueue 2 [2; 3]).
Proof. repeat split. Qed.

(** * Further properties of the header *)

(** ** CPUTimeStat: the packed word *)

Lemma set_last_run_ns_word_any (s : CPUTimeStat.t) (ns : Z) (main : bool) :
  CPUTimeStat.last_run_ns_and_type (CPUTimeStat.set_last_run_ns ns main s)
  = ns mod 2 ^ 63 - (if main then 2 ^ 63 else 0).
Proof.
  unfold CPUTimeStat.last_run_ns_and_type, CPUTimeStat.set_last_run_ns.
  cbn [CPUTimeStat._last_run_ns_and_type].
  rewrite land_time_mask, shl_of_bool_63.
  pose proof (Z.mod_pos_bound ns (2 ^ 63) ltac:(lia)) as Hm.
  destruct main.
  - apply lor_type_mask. exact Hm.
  - rewrite Z.lor_0_r. lia.
Qed.

(** The two accessors on a word given by its low 63 bits and its flag. *)
Lemma accessors_of_word (s : CPUTimeStat.t) (low : Z) (main : bool) :
  0 <= low < 2 ^ 63 ->
  CPUTimeStat.last_run_ns_and_type s = low - (if main then 2 ^ 63 else 0) ->
  CPUTimeStat.last_run_ns s = low /\ CPUTimeStat.is_main_task s = main.
Proof.
  intros Hlow Hw. unfold CPUTimeStat.last_run_ns, CPUTimeStat.is_main_task,
    Int64.to_bool.
  change (CPUTimeStat._last_run_ns_and_type s)
    with (CPUTimeStat.last_run_ns_and_type s).
  rewrite Hw, land_time_mask, land_type_mask. destruct main.
  - split.
    + replace (low - 2 ^ 63) with (low + (-1) * 2 ^ 63) by lia.
      rewrite Z.mod_add by lia. apply Z.mod_small. lia.
    + replace ((low - 2 ^ 63) / 2 ^ 63) with (-1); [reflexivity|].
      apply Z.div_unique with (r := low); lia.
  - rewrite Z.sub_0_r. split.
    + apply Z.mod_small. lia.
    + rewrite Z.div_small by lia. reflexivity.
Qed.

(** An [int64_t] word splits into its low 63 bits and its sign. *)
Lemma word_split (w : Z) :
  Int64.in_range w ->
  0 <= w mod 2 ^ 63 < 2 ^ 63 /\
  w = w mod 2 ^ 63 - (if w <? 0 then 2 ^ 63 else 0).
Proof.
  unfold Int64.in_range, Int64.min_signed, Int64.max_signed,
    Int64.half_modulus. intros Hw.
  split; [apply Z.mod_pos_bound; lia|].
  destruct (Z.ltb_spec w 0).
  - replace w with ((w + 2 ^ 63) + (-1) * 2 ^ 63) at 2 by lia.
    rewrite Z.mod_add by lia. rewrite Z.mod_small by lia. lia.
  - rewrite Z.mod_small by lia. lia.
Qed.

(** X1.  [set_last_run_ns] keeps only the low 63 bits of the timestamp it is
    given: for every [ns], negative or beyond 2^63 included, [last_run_ns()]
    then returns [ns mod 2^63], which lies in [0, 2^63); [is_main_task()]
    returns the flag; and the packed word is an [int64_t]. *)
Theorem set_last_run_ns_truncates (s : CPUTimeStat.t) (ns : Z) (main : bool) :
  let s' := CPUTimeStat.set_last_run_ns ns main s in
  CPUTimeStat.last_run_ns s' = ns mod 2 ^ 63 /\
  0 <= CPUTimeStat.last_run_ns s' < 2 ^ 63 /\
  CPUTimeStat.is_main_task s' = main /\
  Int64.in_range (CPUTimeStat.last_run_ns_and_type s').
Proof.
  intros s'.
  pose proof (Z.mod_pos_bound ns (2 ^ 63) ltac:(lia)) as Hm.
  pose proof (set_last_run_ns_word_any s ns main) as Hw. fold s' in Hw.
  destruct (accessors_of_word s' (ns mod 2 ^ 63) main Hm Hw) as [Hl Hf].
  split; [exact Hl|]. split; [rewrite Hl; exact Hm|]. split; [exact Hf|].
  rewrite Hw. unfold Int64.in_range, Int64.min_signed, Int64.max_signed,
    Int64.half_modulus. destruct main; lia.
Qed.

(** X2.  For any stat, [last_run_ns()] lies in [0, 2^63), also when the flag
    makes the word negative.  When the word is an [int64_t], [is_main_task()]
    holds exactly when the word is negative, and the word is [last_run_ns()]
    minus 2^63 if the flag is set. *)
Theorem CPUTimeStat_accessors_decode (s : CPUTimeStat.t) :
  0 <= CPUTimeStat.last_run_ns s < 2 ^ 63 /\
  (Int64.in_range (CPUTimeStat.last_run_ns_and_type s) ->
   CPUTimeStat.is_main_task s = (CPUTimeStat.last_run_ns_and_type s <? 0) /\
   CPUTimeStat.last_run_ns_and_type s
   = CPUTimeStat.last_run_ns s
     - (if CPUTimeStat.is_main_task s then 2 ^ 63 else 0)).
Proof.
  split.
  - unfold CPUTimeStat.last_run_ns. rewrite land_time_mask.
    apply Z.mod_pos_bound. lia.
  - intros Hw. destruct (word_split _ Hw) as [Hlow Hsplit].
    destruct (accessors_of_word s _ _ Hlow Hsplit) as [Hl Hf].
    split; [exact Hf|]. rewrite Hl, Hf. exact Hsplit.
Qed.

Lemma CPUTimeStat_accessors_decode_witness :
  CPUTimeStat.is_main_task (CPUTimeStat.mk (-9223372036854775000) 42) = true /\
  -9223372036854775000 = 808 - 2 ^ 63.
Proof.
  destruct (CPUTimeStat_accessors_decode
              (CPUTimeStat.mk (-9223372036854775000) 42)) as [_ Hdec].
  assert (Hr : Int64.in_range
                 (CPUTimeStat.last_run_ns_and_type
                    (CPUTimeStat.mk (-9223372036854775000) 42))).
  { unfold Int64.in_range, Int64.min_signed, Int64.max_signed,
      Int64.half_modulus, CPUTimeStat.last_run_ns_and_type.
    cbn [CPUTimeStat._last_run_ns_and_type]. lia. }
  destruct (Hdec Hr) as [Hf Hw]. split; [exact Hf | exact Hw].
Defined.

(** X3.  Unpacking and packing again gives the stat back: for a stat whose
    word is an [int64_t], [set_last_run_ns(last_run_ns(), is_main_task())]
    changes nothing. *)
Theorem set_last_run_ns_of_accessors (s : CPUTimeStat.t) :
  Int64.in_range (CPUTimeStat.last_run_ns_and_type s) ->
  CPUTimeStat.set_last_run_ns (CPUTimeStat.last_run_ns s)
    (CPUTimeStat.is_main_task s) s = s.
Proof.
  intros Hw. destruct (word_split _ Hw) as [Hlow Hsplit].
  destruct (accessors_of_word s _ _ Hlow Hsplit) as [Hl Hf].
  pose proof (set_last_run_ns_word_any s (CPUTimeStat.last_run_ns s)
                (CPUTimeStat.is_main_task s)) as Hset.
  rewrite Hl, Hf, Z.mod_mod, <- Hsplit in Hset by lia.
  rewrite Hl, Hf. destruct s as [w c].
  unfold CPUTimeStat.last_run_ns_and_type in Hset.
  unfold CPUTimeStat.set_last_run_ns in *.
  cbn [CPUTimeStat._last_run_ns_and_type CPUTimeStat._cumulated_cputime_ns]
    in *.
  f_equal. exact Hset.
Qed.

Lemma set_last_run_ns_of_accessors_witness :
  CPUTimeStat.set_last_run_ns
    (CPUTimeStat.last_run_ns (CPUTimeStat.mk (-9223372036854775000) 42))
    (CPUTimeStat.is_main_task (CPUTimeStat.mk (-9223372036854775000) 42))
    (CPUTimeStat.mk (-9223372036854775000) 42)
  = CPUTimeStat.mk (-9223372036854775000) 42.
Proof.
  apply set_last_run_ns_of_accessors.
  unfold Int64.in_range, Int64.min_signed, Int64.max_signed,
    Int64.half_modulus, CPUTimeStat.last_run_ns_and_type.
  cbn [CPUTimeStat._last_run_ns_and_type]. lia.
Defined.

(** X4.  Packing loses nothing but the bits above the 63rd: two calls of
    [set_last_run_ns] on a stat give the same stat exactly when the flags
    are equal and the timestamps agree modulo 2^63; for timestamps in
    [0, 2^63) that is when the two calls have the same arguments. *)
Theorem set_last_run_ns_injective (s : CPUTimeStat.t) (ns1 ns2 : Z)
    (m1 m2 : bool) :
  CPUTimeStat.set_last_run_ns ns1 m1 s = CPUTimeStat.set_last_run_ns ns2 m2 s
  <-> ns1 mod 2 ^ 63 = ns2 mod 2 ^ 63 /\ m1 = m2.
Proof.
  split.
  - intros E. apply (f_equal CPUTimeStat.last_run_ns_and_type) in E.
    rewrite !set_last_run_ns_word_any in E.
    pose proof (Z.mod_pos_bound ns1 (2 ^ 63) ltac:(lia)).
    pose proof (Z.mod_pos_bound ns2 (2 ^ 63) ltac:(lia)).
    destruct m1, m2; first [split; [lia | reflexivity] | exfalso; lia].
  - intros [E ->]. unfold CPUTimeStat.set_last_run_ns.
    rewrite !land_time_mask, E. reflexivity.
Qed.

Lemma set_last_run_ns_injective_witness :
  CPUTimeStat.set_last_run_ns (5 + 2 ^ 63) true CPUTimeStat.init
  = CPUTimeStat.set_last_run_ns 5 true CPUTimeStat.init.
Proof.
  apply (set_last_run_ns_injective CPUTimeStat.init (5 + 2 ^ 63) 5 true true).
  split; reflexivity.
Defined.

(** ** CPUTimeStat: the cumulated time *)

Lemma wrap_wrap_add (a b : Z) :
  Int64.wrap (Int64.wrap a + b) = Int64.wrap (a + b).
Proof. rewrite Z.add_comm, wrap_add_wrap. f_equal. lia. Qed.

(** X5.  [add_cumulated_cputime_ns] does not clamp its argument: for a
    non-main quantum of either sign whose sum with the old value fits
    [int64_t], the new value is exactly the old one plus [delta]; so a
    negative [delta] makes the cumulated time decrease. *)
Theorem add_cumulated_cputime_ns_exact (s : CPUTimeStat.t) (delta : Z) :
  Int64.in_range (CPUTimeStat.cumulated_cputime_ns s + delta) ->
  CPUTimeStat.cumulated_cputime_ns
    (CPUTimeStat.add_cumulated_cputime_ns delta false s)
  = CPUTimeStat.cumulated_cputime_ns s + delta /\
  (delta < 0 ->
   CPUTimeStat.cumulated_cputime_ns
     (CPUTimeStat.add_cumulated_cputime_ns delta false s)
   < CPUTimeStat.cumulated_cputime_ns s).
Proof.
  intros Hfit.
  assert (E : CPUTimeStat.cumulated_cputime_ns
                (CPUTimeStat.add_cumulated_cputime_ns delta false s)
              = CPUTimeStat.cumulated_cputime_ns s + delta).
  { unfold CPUTimeStat.cumulated_cputime_ns in *.
    cbn [CPUTimeStat.add_cumulated_cputime_ns
           CPUTimeStat._cumulated_cputime_ns].
    apply wrap_small. exact Hfit. }
  split; [exact E|]. intros Hneg. rewrite E. lia.
Qed.

Lemma add_cumulated_cputime_ns_exact_witness :
  CPUTimeStat.cumulated_cputime_ns
    (CPUTimeStat.add_cumulated_cputime_ns (-30) false (CPUTimeStat.mk 0 100))
  = 100 + -30.
Proof.
  apply (add_cumulated_cputime_ns_exact (CPUTimeStat.mk 0 100) (-30)).
  unfold Int64.in_range, Int64.min_signed, Int64.max_signed,
    Int64.half_modulus, CPUTimeStat.cumulated_cputime_ns.
  cbn [CPUTimeStat._cumulated_cputime_ns]. lia.
Defined.

(** X6.  Charges compose: two non-main charges in a row are one charge of
    their [int64_t] sum, and two charges, main or not, can be swapped. *)
Theorem add_cumulated_cputime_ns_compose (s : CPUTimeStat.t) (d1 d2 : Z)
    (m1 m2 : bool) :
  CPUTimeStat.add_cumulated_cputime_ns d2 false
    (CPUTimeStat.add_cumulated_cputime_ns d1 false s)
  = CPUTimeStat.add_cumulated_cputime_ns (Int64.add d1 d2) false s /\
  CPUTimeStat.add_cumulated_cputime_ns d2 m2
    (CPUTimeStat.add_cumulated_cputime_ns d1 m1 s)
  = CPUTimeStat.add_cumulated_cputime_ns d1 m1
      (CPUTimeStat.add_cumulated_cputime_ns d2 m2 s).
Proof.
  unfold CPUTimeStat.add_cumulated_cputime_ns, Int64.add. split.
  - cbn [CPUTimeStat._last_run_ns_and_type CPUTimeStat._cumulated_cputime_ns].
    f_equal. rewrite wrap_wrap_add, wrap_add_wrap. f_equal. lia.
  - destruct m1, m2; try reflexivity.
    cbn [CPUTimeStat._last_run_ns_and_type CPUTimeStat._cumulated_cputime_ns].
    f_equal. rewrite !wrap_wrap_add. f_equal. lia.
Qed.

Lemma charge_quanta_fields (quanta : list (Z * bool)) :
  forall s,
    CPUTimeStat.last_run_ns_and_type (charge_quanta quanta s)
    = CPUTimeStat.last_run_ns_and_type s /\
    Int64.wrap (CPUTimeStat.cumulated_cputime_ns (charge_quanta quanta s))
    = Int64.wrap (CPUTimeStat.cumulated_cputime_ns s + workload_ns quanta).
Proof.
  induction quanta as [|[d m] quanta IH]; intros s.
  - cbn [charge_quanta fold_left workload_ns fold_right].
    rewrite Z.add_0_r. split; reflexivity.
  - change (charge_quanta ((d, m) :: quanta) s)
      with (charge_quanta quanta
              (CPUTimeStat.add_cumulated_cputime_ns d m s)).
    destruct (IH (CPUTimeStat.add_cumulated_cputime_ns d m s)) as [Hw Hc].
    rewrite Hw, Hc. cbn [workload_ns fold_right fst snd].
    fold (workload_ns quanta).
    unfold CPUTimeStat.add_cumulated_cputime_ns. destruct m.
    + split; reflexivity.
    + split; [reflexivity|].
      unfold CPUTimeStat.cumulated_cputime_ns, Int64.add.
      cbn [CPUTimeStat._cumulated_cputime_ns].
      rewrite wrap_wrap_add. f_equal. lia.
Qed.

Lemma charge_quanta_in_range (quanta : list (Z * bool)) :
  forall s,
    Int64.in_range (CPUTimeStat.cumulated_cputime_ns s) ->
    Int64.in_range (CPUTimeStat.cumulated_cputime_ns (charge_quanta quanta s)).
Proof.
  induction quanta as [|[d m] quanta IH]; intros s Hs; [exact Hs|].
  change (charge_quanta ((d, m) :: quanta) s)
    with (charge_quanta quanta (CPUTimeStat.add_cumulated_cputime_ns d m s)).
  apply IH. unfold CPUTimeStat.add_cumulated_cputime_ns.
  destruct m; [exact Hs|]. apply wrap_in_range.
Qed.

(** X7.  After any run of quanta charged to a stat whose cumulated time is
    an [int64_t], the word of the timestamp is untouched and the cumulated
    time is the old one plus the time of the non-main quanta, modulo 2^64;
    it is exactly that sum whenever the sum fits. *)
Theorem charge_quanta_workload (quanta : list (Z * bool))
    (s : CPUTimeStat.t) :
  Int64.in_range (CPUTimeStat.cumulated_cputime_ns s) ->
  CPUTimeStat.last_run_ns_and_type (charge_quanta quanta s)
  = CPUTimeStat.last_run_ns_and_type s /\
  CPUTimeStat.cumulated_cputime_ns (charge_quanta quanta s)
  = Int64.wrap (CPUTimeStat.cumulated_cputime_ns s + workload_ns quanta) /\
  (Int64.in_range (CPUTimeStat.cumulated_cputime_ns s + workload_ns quanta) ->
   CPUTimeStat.cumulated_cputime_ns (charge_quanta quanta s)
   = CPUTimeStat.cumulated_cputime_ns s + workload_ns quanta).
Proof.
  intros Hs. destruct (charge_quanta_fields quanta s) as [Hw Hc].
  pose proof (charge_quanta_in_range quanta s Hs) as Hr.
  rewrite (wrap_small _ Hr) in Hc.
  split; [exact Hw|]. split; [exact Hc|].
  intros Hfit. rewrite Hc. apply wrap_small. exact Hfit.
Qed.

Lemma charge_quanta_workload_witness :
  CPUTimeStat.cumulated_cputime_ns
    (charge_quanta [(40, false); (1000, true); (2, false)]
       (CPUTimeStat.mk 7 100))
  = 100 + workload_ns [(40, false); (1000, true); (2, false)].
Proof.
  assert (Hs : Int64.in_range
                 (CPUTimeStat.cumulated_cputime_ns (CPUTimeStat.mk 7 100))).
  { unfold Int64.in_range, Int64.min_signed, Int64.max_signed,
      Int64.half_modulus, CPUTimeStat.cumulated_cputime_ns.
    cbn [CPUTimeStat._cumulated_cputime_ns]. lia. }
  destruct (charge_quanta_workload [(40, false); (1000, true); (2, false)]
              (CPUTimeStat.mk 7 100) Hs) as (_ & _ & Hexact).
  apply Hexact.
  unfold Int64.in_range, Int64.min_signed, Int64.max_signed,
    Int64.half_modulus, CPUTimeStat.cumulated_cputime_ns.
  cbn [CPUTimeStat._cumulated_cputime_ns workload_ns fold_right fst snd]. lia.
Defined.


(** ** Arithmetic modulo 2^64 *)

Lemma wrap_mod (a : Z) : Int64.wrap a mod 2 ^ 64 = a mod 2 ^ 64.
Proof.
  unfold Int64.wrap, Int64.modulus, Int64.half_modulus.
  rewrite Zminus_mod, Zmod_mod, <- Zminus_mod. f_equal. lia.
Qed.

Lemma wrap_congr (a b : Z) :
  a mod 2 ^ 64 = b mod 2 ^ 64 -> Int64.wrap a = Int64.wrap b.
Proof.
  intros E. unfold Int64.wrap, Int64.modulus, Int64.half_modulus.
  f_equal. rewrite (Zplus_mod a), (Zplus_mod b), E. reflexivity.
Qed.

Lemma wrap_sub_wrap (a b : Z) :
  Int64.wrap (Int64.wrap a - Int64.wrap b) = Int64.wrap (a - b).
Proof.
  apply wrap_congr.
  rewrite Zminus_mod, !wrap_mod, <- Zminus_mod. reflexivity.
Qed.

Section HeaderFurtherProperties.

Context `{Collaborators}.

(** ** TaskGroup::steal_task, repeated *)

Lemma set_remote_rq_twice (q1 q2 : RemoteTaskQueue) (g : TaskGroup) :
  set_remote_rq q2 (set_remote_rq q1 g) = set_remote_rq q2 g.
Proof. reflexivity. Qed.

Lemma set_remote_rq_same (g : TaskGroup) : set_remote_rq (_remote_rq g) g = g.
Proof. destruct g. reflexivity. Qed.

(** X8.  [steal_task] drains the group's own remote queue before it turns to
    the control: while the remote queue yields ids, [n] calls in a row return
    exactly those ids in the order the queue gives them, each call makes the
    pop and nothing else, and the group changes in its remote queue only, so
    the control, the seed and the saved parking-lot state are untouched. *)
Theorem steal_task_drains_remote_first (n : nat) :
  forall g : TaskGroup,
    Forall is_Some (remote_pops n (_remote_rq g)).1 ->
    steal_task_times n g
    = ((remote_pops n (_remote_rq g)).1,
       set_remote_rq (remote_pops n (_remote_rq g)).2 g,
       repeat CallRemotePop n).
Proof.
  induction n as [|n IH]; intros g Hsome.
  - cbn [steal_task_times remote_pops fst snd repeat]. unfold member_ret.
    rewrite set_remote_rq_same. reflexivity.
  - cbn [steal_task_times remote_pops] in *.
    unfold member_bind at 1. unfold steal_task at 1, member_bind at 1,
      remote_rq_pop at 1.
    destruct (RemoteTaskQueue_pop (_remote_rq g)) as [r q1] eqn:Hpop.
    destruct (remote_pops n q1) as [rs q2] eqn:Hpops.
    cbn [fst snd] in Hsome. apply Forall_cons in Hsome as [[t ->] Hrest].
    unfold member_ret at 1.
    assert (Hq1 : _remote_rq (set_remote_rq q1 g) = q1) by reflexivity.
    specialize (IH (set_remote_rq q1 g)). rewrite Hq1, Hpops in IH.
    cbn [fst snd] in IH. unfold member_bind. rewrite (IH Hrest).
    unfold member_ret. cbn [fst snd repeat app].
    rewrite set_remote_rq_twice, app_nil_r. reflexivity.
Qed.

(** ** TaskGroup::set_pl and steal_task *)

(** X9.  The parking-lot state [steal_task] saves is read from the lot the
    last [set_pl] installed: after [set_pl(pl)], a call whose pop of the
    remote queue yields nothing leaves [get_state()] of [pl] in
    [_last_pl_state], in a build that keeps the state; a call whose pop
    yields an id, or any call in a build that does not keep it, leaves
    [_last_pl_state] as it was. *)
Theorem steal_task_after_set_pl (pl : ParkingLot) (g : TaskGroup) :
  _last_pl_state (steal_task (set_pl pl g)).1.2
  = match (RemoteTaskQueue_pop (_remote_rq g)).1 with
    | Some _ => _last_pl_state g
    | None =>
        if BTHREAD_DONT_SAVE_PARKING_STATE then _last_pl_state g
        else ParkingLot_get_state pl
    end.
Proof.
  unfold steal_task, member_bind, remote_rq_pop.
  change (_remote_rq (set_pl pl g)) with (_remote_rq g).
  destruct (RemoteTaskQueue_pop (_remote_rq g)) as [[t|] q];
    cbn [fst snd]; [reflexivity|].
  unfold control_steal_task, save_pl_state, member_ret.
  destruct BTHREAD_DONT_SAVE_PARKING_STATE;
    cbn [_control _steal_seed _steal_offset set_remote_rq
           set_last_pl_state set_pl];
    destruct (TaskControl_steal_task (_control g) (_steal_seed g)
                (_steal_offset g)) as [[r seed] c];
    reflexivity.
Qed.

(** ** TaskGroup::current_task_cpu_clock_ns and current_uptime_ns *)

Lemma current_task_cpu_clock_ns_enabled (g : TaskGroup) (now : Z) :
  _last_cpu_clock_ns g <> 0 ->
  current_task_cpu_clock_ns now g
  = Int64.wrap (cpu_usage_ns (stat (_cur_meta g))
                + (now - _last_cpu_clock_ns g)).
Proof.
  intros Hl. unfold current_task_cpu_clock_ns.
  destruct (Z.eqb_spec (_last_cpu_clock_ns g) 0) as [E|_]; [contradiction|].
  unfold Int64.add, Int64.sub. apply wrap_add_wrap.
Qed.

(** X10.  With accounting enabled ([_last_cpu_clock_ns] not 0), two readings
    of [current_task_cpu_clock_ns()] differ by what the thread CPU clock
    advanced between them, modulo 2^64; when both readings fit [int64_t]
    they differ by exactly that, so the reading never goes back while the
    clock does not. *)
Theorem current_task_cpu_clock_ns_elapsed (g : TaskGroup) (now1 now2 : Z) :
  _last_cpu_clock_ns g <> 0 ->
  let usage := cpu_usage_ns (stat (_cur_meta g)) in
  let last := _last_cpu_clock_ns g in
  Int64.wrap (current_task_cpu_clock_ns now2 g
              - current_task_cpu_clock_ns now1 g)
  = Int64.wrap (now2 - now1) /\
  (Int64.in_range (usage + (now1 - last)) ->
   Int64.in_range (usage + (now2 - last)) ->
   current_task_cpu_clock_ns now2 g - current_task_cpu_clock_ns now1 g
   = now2 - now1 /\
   (now1 <= now2 ->
    current_task_cpu_clock_ns now1 g <= current_task_cpu_clock_ns now2 g)).
Proof.
  intros Hl usage last.
  rewrite !current_task_cpu_clock_ns_enabled by exact Hl.
  fold usage last. split.
  - rewrite wrap_sub_wrap. f_equal. lia.
  - intros H1 H2. rewrite !wrap_small by assumption. lia.
Qed.

(** X11.  For clock values that are not negative, as those of
    [cpuwide_time_ns()] are, the subtraction in [current_uptime_ns()] cannot
    overflow: the result is exactly the clock minus the start time of the
    current task, and it is negative exactly when the clock reads less than
    that start time. *)
Theorem current_uptime_ns_exact (g : TaskGroup) (now : Z) :
  0 <= now <= Int64.max_signed ->
  0 <= cpuwide_start_ns (_cur_meta g) <= Int64.max_signed ->
  current_uptime_ns now g = now - cpuwide_start_ns (_cur_meta g) /\
  (current_uptime_ns now g < 0 <-> now < cpuwide_start_ns (_cur_meta g)).
Proof.
  intros Hnow Hstart.
  assert (E : current_uptime_ns now g
              = now - cpuwide_start_ns (_cur_meta g)).
  { unfold current_uptime_ns, Int64.sub. apply wrap_small.
    unfold Int64.in_range, Int64.min_signed, Int64.max_signed,
      Int64.half_modulus in *. lia. }
  split; [exact E|]. rewrite E. lia.
Qed.

End HeaderFurtherProperties.

Lemma steal_task_drains_remote_first_witness :
  steal_task_times 2 (example_group [21; 22; 23] [31] 0)
  = ([Some 21; Some 22], example_group [23] [31] 0,
     [CallRemotePop; CallRemotePop]).
Proof.
  apply (@steal_task_drains_remote_first list_collaborators 2
           (example_group [21; 22; 23] [31] 0)).
  cbn [remote_pops RemoteTaskQueue_pop list_collaborators _remote_rq
         example_group fst snd].
  repeat (constructor; [eexists; reflexivity|]). constructor.
Defined.

Lemma current_task_cpu_clock_ns_elapsed_witness :
  current_task_cpu_clock_ns 1500 (example_group [] [] 1000)
  - current_task_cpu_clock_ns 1300 (example_group [] [] 1000)
  = 1500 - 1300.
Proof.
  assert (Hl : _last_cpu_clock_ns (example_group [] [] 1000) <> 0)
    by (simpl; lia).
  destruct (@current_task_cpu_clock_ns_elapsed list_collaborators
              (example_group [] [] 1000) 1300 1500 Hl) as [_ Hexact].
  apply Hexact;
    unfold Int64.in_range, Int64.min_signed, Int64.max_signed,
      Int64.half_modulus; simpl; lia.
Defined.

Lemma current_uptime_ns_exact_witness :
  current_uptime_ns 1234 (example_group_started 1000) = 1234 - 1000.
Proof.
  apply (@current_uptime_ns_exact list_collaborators
           (example_group_started 1000) 1234);
    unfold Int64.max_signed, Int64.half_modulus; simpl; lia.
Defined.
